(** * The git requirement of horusec: [internal/controllers/requirements/git]

    A shallow embedding of [git.go] and a verification of its version gate.

    [ValidateGit] runs [git --version], lower-cases what the command printed,
    looks for the banner [git version ], reads the major version from the
    first character after the banner and the minor version from the third and
    fourth, and compares the pair with the minimum 2.01.

    Layout of the development:
    - [strings], [strconv]: the Go library functions the package calls,
      modelled at the level the package observes them;
    - [Go]: the effects of a method call (package variables read, log entries
      written, run-time panics);
    - [git]: the package itself, one definition per source function, followed
      by the theorems. *)

From Stdlib Require Import ZArith List String Ascii Bool Arith Lia.
Import ListNotations.

Local Open Scope string_scope.
Local Open Scope list_scope.

(* ------------------------------------------------------------------------ *)
(** * Go strings

    A Go string is a sequence of bytes; [string] (a list of 8-bit [ascii]) is
    that sequence and [String.length] is Go's [len]. *)

Module strings.

(** [utf8.RuneSelf]: a byte below it is a character of its own. *)
Definition RuneSelf : ascii := ascii_of_nat 128.

Fixpoint isASCII (s : string) : bool :=
  match s with
  | EmptyString => true
  | String c s' => (c <? RuneSelf)%char && isASCII s'
  end.

(** ['A' <= c && c <= 'Z'] *)
Definition isUpper (c : ascii) : bool := (("A" <=? c) && (c <=? "Z"))%char.

Fixpoint hasUpper (s : string) : bool :=
  match s with
  | EmptyString => false
  | String c s' => isUpper c || hasUpper s'
  end.

(** [c += 'a' - 'A'] on an upper-case letter. *)
Definition lowerByte (c : ascii) : ascii :=
  if isUpper c then ascii_of_nat (nat_of_ascii c + 32) else c.

Fixpoint lowerASCII (s : string) : string :=
  match s with
  | EmptyString => EmptyString
  | String c s' => String (lowerByte c) (lowerASCII s')
  end.

Section Lower.

(** [strings.ToLower] has two paths.  A string whose bytes are all below
    [RuneSelf] is handled byte by byte.  Any other string goes through
    [Map(unicode.ToLower, s)], which decodes UTF-8 and consults the Unicode
    case tables of the Go distribution; that path is the parameter
    [unicodeLower], about which nothing is assumed. *)
Variable unicodeLower : string -> string.

Definition ToLower (s : string) : string :=
  if isASCII s then
    if hasUpper s then lowerASCII s else s
  else unicodeLower s.

End Lower.

(** [strings.Index]: the byte offset of the first occurrence of [substr] in
    [s]; [None] is Go's -1. *)
Definition Index (s substr : string) : option nat := String.index 0 substr s.

(** [strings.Contains] is [Index(s, substr) >= 0]. *)
Definition Contains (s substr : string) : bool :=
  match Index s substr with
  | Some _ => true
  | None => false
  end.

(** [s[m:]] for [m <= len(s)]. *)
Definition from (m : nat) (s : string) : string :=
  substring m (String.length s - m) s.

(** The loop of [genSplit] for a non-empty separator: cut at the first
    occurrence, continue behind it, stop when [Index] finds nothing.  Go bounds
    the loop by [Count(s, sep)]; [n] plays that part. *)
Fixpoint genSplit (n : nat) (s sep : string) : list string :=
  match n with
  | O => [s]
  | S n' =>
      match Index s sep with
      | None => [s]
      | Some m =>
          substring 0 m s :: genSplit n' (from (m + String.length sep) s) sep
      end
  end.

(** [strings.Split(s, sep)] for a non-empty [sep].  A non-empty separator
    occurs at most [len(s)] times without overlap, so [len(s)] rounds are
    enough for the loop to end on [Index] finding nothing. *)
Definition Split (s sep : string) : list string :=
  genSplit (String.length s) s sep.

End strings.

(* ------------------------------------------------------------------------ *)
(** * strconv *)

Module strconv.

Local Open Scope Z_scope.

(** [ch -= '0'; if ch > 9 { syntax error }] *)
Definition digit (ch : ascii) : option Z :=
  if (("0" <=? ch) && (ch <=? "9"))%char
  then Some (Z.of_nat (nat_of_ascii ch) - 48)
  else None.

(** [n = n*10 + int(ch)] over the bytes of [s]. *)
Fixpoint digits (s : string) (n : Z) : option Z :=
  match s with
  | EmptyString => Some n
  | String ch s' =>
      match digit ch with
      | Some d => digits s' (n * 10 + d)
      | None => None
      end
  end.

(** The range of [int] where [intSize] is 64. *)
Definition minInt : Z := - 2 ^ 63.
Definition maxInt : Z := 2 ^ 63 - 1.

(** [strconv.Atoi]: an optional sign, then one or more decimal digits, the
    value within [int].  The package only tests the returned error against
    [nil], so the result is the integer, or [None] when Go returns a
    [*NumError] (for syntax or for range). *)
Definition Atoi (s : string) : option Z :=
  match s with
  | EmptyString => None
  | String s0 rest =>
      let signed := (s0 =? "-")%char || (s0 =? "+")%char in
      let body := if signed then rest else s in
      match body with
      | EmptyString => None
      | _ =>
          match digits body 0 with
          | None => None
          | Some n =>
              let v := if (s0 =? "-")%char then - n else n in
              if (minInt <=? v) && (v <=? maxInt) then Some v else None
          end
      end
  end.

End strconv.

(* ------------------------------------------------------------------------ *)
(** * Values shared with the rest of the program *)

(** What [exec.Command(...).CombinedOutput()] can fail with: the program is
    not on the path, it ran and exited with a non-zero status, or the
    operating system refused to start it. *)
Inductive ExecFailure : Type :=
| ErrNotFound
| ExitError (code : Z)
| StartError (msg : string).

(** A non-nil Go [error]: a message made by [errors.New] or [fmt.Errorf], or
    the failure of a command.  [error] adds [nil], written [None]. *)
Inductive errorValue : Type :=
| errorString (msg : string)
| execError (cause : ExecFailure).

Definition error : Type := option errorValue.
Definition nil_error : error := None.

(** The texts of [internal/helpers/messages] that the package logs.  Their
    wording lives in that package; here only their identity matters. *)
Module messages.
Inductive Message : Type :=
| MsgErrorWhenCheckRequirementsGit
| MsgErrorWhenGitIsLowerVersion
| MsgInfoHowToInstallGit.
End messages.

(** What the devkit logger is asked to write. *)
Module logger.
Inductive Entry : Type :=
| Info (msg : messages.Message)
| ErrorWithLevel (msg : messages.Message) (e : error).
End logger.

(** The package-level [var] block of [git.go]. *)
Record Package : Type := mkPackage {
  ErrMinVersion : error;
  ErrGitNotInstalled : error;
  ErrGitLowerVersion : error
}.

(* ------------------------------------------------------------------------ *)
(** * Effects of a call

    A call reads package variables, appends log entries, and either returns
    or panics.  [Go A] threads the package variables, collects the entries in
    order, and stops at the first panic. *)

Inductive Panic : Type :=
| IndexOutOfRange (index len : nat)
| SliceBoundsOutOfRange (bound len : nat).

Inductive Outcome (A : Type) : Type :=
| Returns (a : A)
| Panicked (p : Panic).
Arguments Returns {A} a.
Arguments Panicked {A} p.

Record Run (A : Type) : Type := mkRun {
  outcome : Outcome A;
  vars : Package;
  emitted : list logger.Entry
}.
Arguments mkRun {A} _ _ _.
Arguments outcome {A} _.
Arguments vars {A} _.
Arguments emitted {A} _.

Definition Go (A : Type) : Type := Package -> Run A.

Definition ret {A : Type} (a : A) : Go A :=
  fun p => mkRun (Returns a) p [].

Definition bind {A B : Type} (m : Go A) (k : A -> Go B) : Go B :=
  fun p =>
    let r := m p in
    match outcome r with
    | Returns a =>
        let r' := k a (vars r) in
        mkRun (outcome r') (vars r') (emitted r ++ emitted r')
    | Panicked x => mkRun (Panicked x) (vars r) (emitted r)
    end.

Declare Scope go_scope.
Delimit Scope go_scope with go.
Notation "x <- m ;; k" := (bind m (fun x => k))
  (at level 61, m at next level, right associativity) : go_scope.
Notation "' pat <- m ;; k" := (bind m (fun x => match x with pat => k end))
  (at level 61, pat pattern, m at next level, right associativity) : go_scope.
Notation "m ;;; k" := (bind m (fun _ => k))
  (at level 61, right associativity) : go_scope.

(** Reading a package variable. *)
Definition readVar {A : Type} (field : Package -> A) : Go A :=
  fun p => mkRun (Returns (field p)) p [].

Definition panic {A : Type} (x : Panic) : Go A :=
  fun p => mkRun (Panicked x) p [].

Definition LogInfo (msg : messages.Message) : Go unit :=
  fun p => mkRun (Returns tt) p [logger.Info msg].

Definition LogErrorWithLevel (msg : messages.Message) (e : error) : Go unit :=
  fun p => mkRun (Returns tt) p [logger.ErrorWithLevel msg e].

(** [s[lo:hi]]: Go panics unless [lo <= hi <= len(s)]. *)
Definition slice (s : string) (lo hi : nat) : Go string :=
  if ((hi <=? String.length s) && (lo <=? hi))%nat
  then ret (substring lo (hi - lo) s)
  else panic (SliceBoundsOutOfRange hi (String.length s)).

(** [a[i]]: Go panics unless [i < len(a)]. *)
Definition at_index {A : Type} (a : list A) (i : nat) : Go A :=
  match nth_error a i with
  | Some x => ret x
  | None => panic (IndexOutOfRange i (List.length a))
  end.

(** [b && e] where evaluating [e] can panic: [e] runs only when [b] holds. *)
Definition and_then (b : bool) (e : Go bool) : Go bool :=
  if b then e else ret false.

(** [b || e]: [e] runs only when [b] does not hold. *)
Definition or_else (b : bool) (e : Go bool) : Go bool :=
  if b then ret true else e.

(** A computation that hands the package variables on as it found them. *)
Definition reads_only {A : Type} (m : Go A) : Prop :=
  forall p : Package, vars (m p) = p.

(** An instance of the Unicode path of [strings.ToLower] for closed
    statements: the text is left as it is.  Those statements are about
    outputs made of ASCII bytes, for which [ToLower] never takes that path. *)
Definition noFolding (s : string) : string := s.

(* ------------------------------------------------------------------------ *)
(** * Package git *)

Module git.

Local Open Scope go_scope.
Local Open Scope Z_scope.

Definition MinVersionGitAccept : Z := 2.
(** [0o1], octal. *)
Definition MinSubVersionGitAccept : Z := 1.

(** The banner that both [checkIfContainsGitVersion] and
    [extractGitVersionFromString] look for. *)
Definition marker : string := "git version ".

(** The package variables as their initialisers leave them;
    [fmt.Errorf("%v.%v", 2, 0o1)] prints [2.1]. *)
Definition initial : Package := {|
  ErrMinVersion := Some (errorString "2.1");
  ErrGitNotInstalled :=
    Some (errorString "git not found. Please check and try again");
  ErrGitLowerVersion :=
    Some (errorString "git version is lower of 2.01. Please check and try again")
|}.

(** [type RequirementGit struct{}] *)
Record RequirementGit : Type := mkRequirementGit { }.

Definition NewRequirementGit : RequirementGit := mkRequirementGit.

(** What [exec.Command("git", "--version").CombinedOutput()] hands back: the
    bytes written to standard output and standard error, and the error. *)
Record CombinedOutput : Type := mkCombinedOutput {
  responseBytes : string;
  err : option ExecFailure
}.

Section Requirement.

(** The Unicode path of [strings.ToLower], see [strings.ToLower]. *)
Variable unicodeLower : string -> string.

Abbreviation ToLower := (strings.ToLower unicodeLower).

Definition getVersionAndSubVersion (r : RequirementGit) (fullVersion : string)
  : Go (Z * Z * error) :=
  major <- slice fullVersion 0 1 ;;
  match strconv.Atoi major with
  | None => e <- readVar ErrGitNotInstalled ;; ret (0, 0, e)
  | Some version =>
      minor <- slice fullVersion 2 4 ;;
      match strconv.Atoi minor with
      | None => e <- readVar ErrGitNotInstalled ;; ret (0, 0, e)
      | Some subversion => ret (version, subversion, nil_error)
      end
  end.

Definition checkIfContainsGitVersion (r : RequirementGit) (response : string)
  : bool :=
  strings.Contains (ToLower response) marker.

(** The local [responseSpited] of [extractGitVersionFromString]. *)
Definition responseSpited (response : string) : list string :=
  strings.Split (ToLower response) marker.

(** The text the versions are read from, [responseSpited[1]]: what follows the
    first banner, up to the next banner if there is one.  [None] when the
    banner is missing. *)
Definition versionText (response : string) : option string :=
  nth_error (responseSpited response) 1.

Definition extractGitVersionFromString (r : RequirementGit) (response : string)
  : Go (Z * Z * error) :=
  let responseSpited := responseSpited response in
  reject <-
    or_else (List.length responseSpited <? 1)%nat
      (and_then (1 <? List.length responseSpited)%nat
         (v <- at_index responseSpited 1 ;; ret (String.length v <? 3)%nat)) ;;
  if reject then
    e <- readVar ErrGitNotInstalled ;; ret (0, 0, e)
  else
    fullVersion <- at_index responseSpited 1 ;;
    getVersionAndSubVersion r fullVersion.

Definition validateIfGitIsRunningInMinVersion (r : RequirementGit)
    (response : string) : Go error :=
  '(version, subversion, err) <- extractGitVersionFromString r response ;;
  match err with
  | Some _ => ret err
  | None =>
      if version <? MinVersionGitAccept then
        minVersion <- readVar ErrMinVersion ;;
        LogErrorWithLevel messages.MsgErrorWhenGitIsLowerVersion minVersion ;;;
        readVar ErrGitLowerVersion
      else if (version =? MinVersionGitAccept)
              && (subversion <? MinSubVersionGitAccept) then
        minVersion <- readVar ErrMinVersion ;;
        LogErrorWithLevel messages.MsgErrorWhenGitIsLowerVersion minVersion ;;;
        readVar ErrGitLowerVersion
      else ret nil_error
  end.

Definition validateIfGitIsSupported (r : RequirementGit) (version : string)
  : Go error :=
  err <- validateIfGitIsRunningInMinVersion r version ;;
  match err with
  | Some _ => LogInfo messages.MsgInfoHowToInstallGit ;;; ret err
  | None => ret nil_error
  end.

(** The command's result [git] stands for the call
    [exec.Command("git", "--version").CombinedOutput()]. *)
Definition execGitVersion (r : RequirementGit) (git : CombinedOutput)
  : Go (string * error) :=
  match err git with
  | Some cause =>
      LogErrorWithLevel messages.MsgErrorWhenCheckRequirementsGit
        (Some (execError cause)) ;;;
      ret (EmptyString, Some (execError cause))
  | None => ret (ToLower (responseBytes git), nil_error)
  end.

Definition validateIfGitIsInstalled (r : RequirementGit) (git : CombinedOutput)
  : Go (string * error) :=
  '(response, err) <- execGitVersion r git ;;
  match err with
  | Some _ => ret (EmptyString, err)
  | None =>
      if negb (checkIfContainsGitVersion r response) then
        e <- readVar ErrGitNotInstalled ;; ret (EmptyString, e)
      else ret (response, nil_error)
  end.

Definition ValidateGit (r : RequirementGit) (git : CombinedOutput) : Go error :=
  '(response, err) <- validateIfGitIsInstalled r git ;;
  match err with
  | Some _ => ret err
  | None => validateIfGitIsSupported r response
  end.

(** The spec's [Validate]: [NewRequirementGit().ValidateGit()] in the package
    as initialised, observed through what the call returns. *)
Definition Validate (git : CombinedOutput) : Outcome error :=
  outcome (ValidateGit NewRequirementGit git initial).

(** A command that ran and printed [out]. *)
Definition printed (out : string) : CombinedOutput :=
  mkCombinedOutput out None.

(* ------------------------------------------------------------------------ *)
(** * Facts about the library functions *)

Lemma genSplit_first (n : nat) (s sep : string) :
  exists a rest, strings.genSplit n s sep = a :: rest.
Proof.
  destruct n as [|n]; simpl.
  - now exists s, [].
  - destruct (strings.Index s sep) as [m|]; eauto.
Qed.

Lemma substring_nothing (s : string) : substring 0 0 s = EmptyString.
Proof. destruct s; reflexivity. Qed.

Lemma substring_all (s : string) : substring 0 (String.length s) s = s.
Proof. induction s as [|c s IH]; cbn; [|rewrite IH]; reflexivity. Qed.

(** Without an occurrence of the separator, [Split] gives the string back as
    the only piece. *)
Lemma Split_absent (s sep : string) :
  strings.Contains s sep = false -> strings.Split s sep = [s].
Proof.
  unfold strings.Contains, strings.Split. intros H.
  destruct (String.length s); simpl; [reflexivity|].
  destruct (strings.Index s sep); [discriminate | reflexivity].
Qed.

(** With an occurrence of the banner there are at least two pieces. *)
Lemma Split_present (s : string) :
  strings.Contains s marker = true ->
  exists a v rest, strings.Split s marker = a :: v :: rest.
Proof.
  unfold strings.Contains, strings.Split. intros H.
  destruct s as [|c s]; [discriminate H|].
  cbn [String.length strings.genSplit].
  destruct (strings.Index (String c s) marker) as [m|]; [|discriminate H].
  destruct (genSplit_first (String.length s)
              (strings.from (m + String.length marker) (String c s)) marker)
    as (v & rest & ->).
  eauto.
Qed.

Lemma Contains_of_pieces (s : string) (a v : string) (rest : list string) :
  strings.Split s marker = a :: v :: rest -> strings.Contains s marker = true.
Proof.
  intros H. destruct (strings.Contains s marker) eqn:E; [reflexivity|].
  rewrite (Split_absent _ _ E) in H. discriminate H.
Qed.

(* ------------------------------------------------------------------------ *)
(** * The effects of each function *)

Lemma outcome_bind {A B : Type} (m : Go A) (k : A -> Go B) (p : Package) :
  outcome (bind m k p) =
  match outcome (m p) with
  | Returns a => outcome (k a (vars (m p)))
  | Panicked x => Panicked x
  end.
Proof. unfold bind. destruct (outcome (m p)); reflexivity. Qed.

Lemma reads_only_ret {A : Type} (a : A) : reads_only (ret a).
Proof. intro p. reflexivity. Qed.

Lemma reads_only_bind {A B : Type} (m : Go A) (k : A -> Go B) :
  reads_only m -> (forall a, reads_only (k a)) -> reads_only (bind m k).
Proof.
  intros Hm Hk p. unfold bind.
  destruct (outcome (m p)); cbn [vars]; [rewrite Hk|]; apply Hm.
Qed.

Lemma reads_only_readVar {A : Type} (field : Package -> A) :
  reads_only (readVar field).
Proof. intro p. reflexivity. Qed.

Lemma reads_only_panic {A : Type} (x : Panic) : reads_only (@panic A x).
Proof. intro p. reflexivity. Qed.

Lemma reads_only_LogInfo (msg : messages.Message) : reads_only (LogInfo msg).
Proof. intro p. reflexivity. Qed.

Lemma reads_only_LogErrorWithLevel (msg : messages.Message) (e : error) :
  reads_only (LogErrorWithLevel msg e).
Proof. intro p. reflexivity. Qed.

Lemma reads_only_slice (s : string) (lo hi : nat) : reads_only (slice s lo hi).
Proof. unfold slice. destruct (_ && _)%bool; intro p; reflexivity. Qed.

Lemma reads_only_at_index {A : Type} (a : list A) (i : nat) :
  reads_only (at_index a i).
Proof. unfold at_index. destruct (nth_error a i); intro p; reflexivity. Qed.

Lemma reads_only_and_then (b : bool) (e : Go bool) :
  reads_only e -> reads_only (and_then b e).
Proof. intros He. unfold and_then. destruct b; [exact He|]. intro p. reflexivity. Qed.

Lemma reads_only_or_else (b : bool) (e : Go bool) :
  reads_only e -> reads_only (or_else b e).
Proof. intros He. unfold or_else. destruct b; [|exact He]. intro p. reflexivity. Qed.

Create HintDb frame.
#[local] Hint Resolve reads_only_ret reads_only_readVar reads_only_panic
  reads_only_LogInfo reads_only_LogErrorWithLevel reads_only_slice
  reads_only_at_index : frame.

Ltac frame :=
  repeat (first
    [ solve [auto with frame]
    | apply reads_only_bind; [|intro]
    | apply reads_only_and_then
    | apply reads_only_or_else
    | match goal with
      | |- reads_only (match ?x with _ => _ end) => destruct x
      | |- reads_only (if ?b then _ else _) => destruct b
      end ]).

Lemma reads_only_getVersionAndSubVersion r fullVersion :
  reads_only (getVersionAndSubVersion r fullVersion).
Proof. unfold getVersionAndSubVersion. frame. Qed.
#[local] Hint Resolve reads_only_getVersionAndSubVersion : frame.

Lemma reads_only_extractGitVersionFromString r response :
  reads_only (extractGitVersionFromString r response).
Proof. unfold extractGitVersionFromString. frame. Qed.
#[local] Hint Resolve reads_only_extractGitVersionFromString : frame.

Lemma reads_only_validateIfGitIsRunningInMinVersion r response :
  reads_only (validateIfGitIsRunningInMinVersion r response).
Proof. unfold validateIfGitIsRunningInMinVersion. frame. Qed.
#[local] Hint Resolve reads_only_validateIfGitIsRunningInMinVersion : frame.

Lemma reads_only_validateIfGitIsSupported r version :
  reads_only (validateIfGitIsSupported r version).
Proof. unfold validateIfGitIsSupported. frame. Qed.
#[local] Hint Resolve reads_only_validateIfGitIsSupported : frame.

Lemma reads_only_execGitVersion r git : reads_only (execGitVersion r git).
Proof. unfold execGitVersion. frame. Qed.
#[local] Hint Resolve reads_only_execGitVersion : frame.

Lemma reads_only_validateIfGitIsInstalled r git :
  reads_only (validateIfGitIsInstalled r git).
Proof. unfold validateIfGitIsInstalled. frame. Qed.
#[local] Hint Resolve reads_only_validateIfGitIsInstalled : frame.

Lemma reads_only_ValidateGit r git : reads_only (ValidateGit r git).
Proof. unfold ValidateGit. frame. Qed.

(* ------------------------------------------------------------------------ *)
(** * What each function returns *)

(** On a text of four characters or more, the first character gives the
    major version and the third and fourth give the minor version. *)
Lemma getVersionAndSubVersion_four r (a b c d : ascii) (w : string) p :
  getVersionAndSubVersion r (String a (String b (String c (String d w)))) p =
  match strconv.Atoi (String a EmptyString) with
  | None => mkRun (Returns (0, 0, ErrGitNotInstalled p)) p []
  | Some version =>
      match strconv.Atoi (String c (String d EmptyString)) with
      | None => mkRun (Returns (0, 0, ErrGitNotInstalled p)) p []
      | Some subversion => mkRun (Returns (version, subversion, nil_error)) p []
      end
  end.
Proof.
  unfold getVersionAndSubVersion, bind, slice. cbn -[strconv.Atoi].
  rewrite !substring_nothing.
  destruct (strconv.Atoi (String a EmptyString)); cbn -[strconv.Atoi];
    [|reflexivity].
  destruct (strconv.Atoi (String c (String d EmptyString))); reflexivity.
Qed.

(** On a text of exactly three characters whose first is a number, the slice
    [fullVersion[2:4]] is out of bounds. *)
Lemma getVersionAndSubVersion_three r (a b c : ascii) p :
  getVersionAndSubVersion r (String a (String b (String c EmptyString))) p =
  match strconv.Atoi (String a EmptyString) with
  | None => mkRun (Returns (0, 0, ErrGitNotInstalled p)) p []
  | Some version => mkRun (Panicked (SliceBoundsOutOfRange 4 3)) p []
  end.
Proof.
  unfold getVersionAndSubVersion, bind, slice. cbn -[strconv.Atoi].
  destruct (strconv.Atoi (String a EmptyString)); reflexivity.
Qed.

(** With the banner found, [responseSpited[1]] is the text the versions are
    read from. *)
Lemma extractGitVersionFromString_pieces r response a v rest p :
  responseSpited response = a :: v :: rest ->
  extractGitVersionFromString r response p =
  if (String.length v <? 3)%nat
  then mkRun (Returns (0, 0, ErrGitNotInstalled p)) p []
  else getVersionAndSubVersion r v p.
Proof.
  intros H. unfold extractGitVersionFromString. rewrite H.
  unfold or_else, and_then, at_index, bind, ret.
  cbn -[getVersionAndSubVersion String.length].
  destruct (String.length v <=? 2)%nat; cbn -[getVersionAndSubVersion];
    [reflexivity|].
  destruct (getVersionAndSubVersion r v p); reflexivity.
Qed.

(** Without the banner, [responseSpited] has one element and
    [responseSpited[1]] is out of range. *)
Lemma extractGitVersionFromString_no_banner r response p :
  strings.Contains (ToLower response) marker = false ->
  extractGitVersionFromString r response p =
  mkRun (Panicked (IndexOutOfRange 1 1)) p [].
Proof.
  intros H. unfold extractGitVersionFromString, responseSpited.
  rewrite (Split_absent _ _ H). reflexivity.
Qed.

Lemma outcome_validateIfGitIsRunningInMinVersion r response p :
  outcome (validateIfGitIsRunningInMinVersion r response p) =
  match outcome (extractGitVersionFromString r response p) with
  | Returns (version, subversion, None) =>
      Returns (if (version <? MinVersionGitAccept)
                  || ((version =? MinVersionGitAccept)
                      && (subversion <? MinSubVersionGitAccept))
               then ErrGitLowerVersion p else nil_error)
  | Returns (_, _, Some e) => Returns (Some e)
  | Panicked x => Panicked x
  end.
Proof.
  unfold validateIfGitIsRunningInMinVersion.
  rewrite outcome_bind, reads_only_extractGitVersionFromString.
  destruct (outcome (extractGitVersionFromString r response p))
    as [[[version subversion] [e|]]|x]; try reflexivity.
  destruct (version <? MinVersionGitAccept); [reflexivity|].
  destruct ((version =? MinVersionGitAccept)
            && (subversion <? MinSubVersionGitAccept)); reflexivity.
Qed.

Lemma outcome_validateIfGitIsSupported r version p :
  outcome (validateIfGitIsSupported r version p) =
  outcome (validateIfGitIsRunningInMinVersion r version p).
Proof.
  unfold validateIfGitIsSupported. rewrite outcome_bind.
  destruct (outcome (validateIfGitIsRunningInMinVersion r version p))
    as [[e|]|x]; reflexivity.
Qed.

(** A command that ran: the banner check decides between [ErrGitNotInstalled]
    and the version check. *)
Lemma Validate_printed (out : string) :
  Validate (printed out) =
  if checkIfContainsGitVersion NewRequirementGit (ToLower out)
  then outcome (validateIfGitIsSupported NewRequirementGit (ToLower out) initial)
  else Returns (ErrGitNotInstalled initial).
Proof.
  unfold Validate, ValidateGit, validateIfGitIsInstalled, execGitVersion.
  unfold bind, ret, readVar. cbn [printed err responseBytes outcome vars].
  destruct (checkIfContainsGitVersion NewRequirementGit (ToLower out));
    reflexivity.
Qed.

(** A command that ran and printed the banner: the verdict as a function of
    the text [v] after the banner. *)
Lemma Validate_pieces (out a v : string) (rest : list string) :
  responseSpited (ToLower out) = a :: v :: rest ->
  Validate (printed out) =
  if (String.length v <? 3)%nat then Returns (ErrGitNotInstalled initial)
  else
    match outcome (getVersionAndSubVersion NewRequirementGit v initial) with
    | Returns (version, subversion, None) =>
        Returns (if (version <? MinVersionGitAccept)
                    || ((version =? MinVersionGitAccept)
                        && (subversion <? MinSubVersionGitAccept))
                 then ErrGitLowerVersion initial else nil_error)
    | Returns (_, _, Some e) => Returns (Some e)
    | Panicked x => Panicked x
    end.
Proof.
  intros H. rewrite Validate_printed.
  unfold checkIfContainsGitVersion.
  rewrite (Contains_of_pieces _ _ _ _ H).
  rewrite outcome_validateIfGitIsSupported,
    outcome_validateIfGitIsRunningInMinVersion.
  rewrite (extractGitVersionFromString_pieces _ _ _ _ _ _ H).
  destruct (String.length v <? 3)%nat; reflexivity.
Qed.

Lemma versionText_pieces (response v : string) :
  versionText response = Some v <->
  exists a rest, responseSpited response = a :: v :: rest.
Proof.
  unfold versionText. split.
  - destruct (responseSpited response) as [|a [|v' rest]]; try discriminate.
    intros [= ->]. eauto.
  - intros (a & rest & ->). reflexivity.
Qed.

(** Every error value that the parsing step returns is [ErrGitNotInstalled]. *)
Lemma getVersionAndSubVersion_error r fullVersion p version subversion e :
  outcome (getVersionAndSubVersion r fullVersion p)
    = Returns (version, subversion, Some e) ->
  ErrGitNotInstalled p = Some e.
Proof.
  unfold getVersionAndSubVersion. rewrite outcome_bind, reads_only_slice.
  destruct (outcome (slice fullVersion 0 1 p)) as [major|x]; [|discriminate].
  destruct (strconv.Atoi major).
  - rewrite outcome_bind, reads_only_slice.
    destruct (outcome (slice fullVersion 2 4 p)) as [minor|x]; [|discriminate].
    destruct (strconv.Atoi minor); cbn; unfold nil_error; congruence.
  - cbn. congruence.
Qed.

Lemma extractGitVersionFromString_error r response p version subversion e :
  outcome (extractGitVersionFromString r response p)
    = Returns (version, subversion, Some e) ->
  ErrGitNotInstalled p = Some e.
Proof.
  destruct (strings.Contains (ToLower response) marker) eqn:E.
  - destruct (Split_present _ E) as (a & v & rest & H).
    rewrite (extractGitVersionFromString_pieces r _ _ _ _ p H).
    destruct (String.length v <? 3)%nat.
    + cbn. congruence.
    + apply getVersionAndSubVersion_error.
  - rewrite (extractGitVersionFromString_no_banner r _ p E). discriminate.
Qed.

(* ------------------------------------------------------------------------ *)
(** * Lower-casing ASCII text *)

Lemma lowerByte_not_upper (c : ascii) : strings.isUpper (strings.lowerByte c) = false.
Proof. destruct c as [[] [] [] [] [] [] [] []]; reflexivity. Qed.

Lemma lowerByte_ASCII (c : ascii) :
  (strings.lowerByte c <? strings.RuneSelf)%char = (c <? strings.RuneSelf)%char.
Proof. destruct c as [[] [] [] [] [] [] [] []]; reflexivity. Qed.

Lemma lowerByte_fixed (c : ascii) :
  strings.isUpper c = false -> strings.lowerByte c = c.
Proof. unfold strings.lowerByte. now intros ->. Qed.

Lemma hasUpper_lowerASCII (s : string) :
  strings.hasUpper (strings.lowerASCII s) = false.
Proof.
  induction s as [|c s IH]; cbn; [reflexivity|].
  now rewrite lowerByte_not_upper, IH.
Qed.

Lemma isASCII_lowerASCII (s : string) :
  strings.isASCII (strings.lowerASCII s) = strings.isASCII s.
Proof.
  induction s as [|c s IH]; cbn; [reflexivity|].
  now rewrite lowerByte_ASCII, IH.
Qed.

Lemma lowerASCII_fixed (s : string) :
  strings.hasUpper s = false -> strings.lowerASCII s = s.
Proof.
  induction s as [|c s IH]; cbn; [reflexivity|].
  intros [Hc Hs]%orb_false_iff. now rewrite lowerByte_fixed, IH.
Qed.

(** On ASCII text [ToLower] is the byte-wise lower-casing, whichever of its
    two returns is taken. *)
Lemma ToLower_ASCII (s : string) :
  strings.isASCII s = true -> ToLower s = strings.lowerASCII s.
Proof.
  unfold strings.ToLower. intros ->.
  destruct (strings.hasUpper s) eqn:E; [reflexivity|].
  symmetry. now apply lowerASCII_fixed.
Qed.

(** Lower-casing ASCII text a second time changes nothing: the lower-casing
    in [execGitVersion] already gives the text that [checkIfContainsGitVersion]
    and [extractGitVersionFromString] look at. *)
Lemma ToLower_ASCII_twice (s : string) :
  strings.isASCII s = true -> ToLower (ToLower s) = ToLower s.
Proof.
  intros H. rewrite (ToLower_ASCII s H).
  rewrite ToLower_ASCII by now rewrite isASCII_lowerASCII.
  apply lowerASCII_fixed, hasUpper_lowerASCII.
Qed.

(* ------------------------------------------------------------------------ *)
(** * The rounds of [genSplit] *)

Lemma length_substring (n m : nat) (s : string) :
  String.length (substring n m s) = Nat.min m (String.length s - n).
Proof.
  revert n m. induction s as [|c s IH]; intros [|n] [|m]; cbn; auto.
  now rewrite IH, Nat.sub_0_r.
Qed.

Lemma length_from (k : nat) (s : string) :
  String.length (strings.from k s) = (String.length s - k)%nat.
Proof. unfold strings.from. rewrite length_substring. apply Nat.min_id. Qed.

Lemma Index_empty (sep : string) :
  sep <> EmptyString -> strings.Index EmptyString sep = None.
Proof. destruct sep; [congruence | reflexivity]. Qed.

(** Any number of rounds from [len(s)] on gives the same pieces: each round
    that finds the separator leaves a shorter string, so the loop has ended
    on [Index] finding nothing before the rounds are used up. *)
Lemma genSplit_rounds (sep : string) :
  sep <> EmptyString ->
  forall (n1 n2 : nat) (s : string),
    (String.length s <= n1)%nat -> (String.length s <= n2)%nat ->
    strings.genSplit n1 s sep = strings.genSplit n2 s sep.
Proof.
  intros Hsep.
  assert (L : (1 <= String.length sep)%nat)
    by (destruct sep; [congruence | cbn; lia]).
  assert (E : forall n s, String.length s = 0%nat ->
                          strings.genSplit n s sep = [s]).
  { intros n [|c s] H; [|discriminate H].
    destruct n; cbn [strings.genSplit]; [reflexivity|].
    now rewrite Index_empty. }
  induction n1 as [|n1 IH]; intros n2 s H1 H2.
  - rewrite !E by lia. reflexivity.
  - destruct n2 as [|n2]; [rewrite !E by lia; reflexivity|].
    cbn [strings.genSplit].
    destruct (strings.Index s sep) as [m|]; [|reflexivity].
    f_equal. apply IH; rewrite length_from; lia.
Qed.

Lemma Split_rounds (s sep : string) (n : nat) :
  sep <> EmptyString -> (String.length s <= n)%nat ->
  strings.genSplit n s sep = strings.Split s sep.
Proof. intros Hsep Hn. now apply genSplit_rounds. Qed.

(* ------------------------------------------------------------------------ *)
(** * When [Validate] panics *)

(** [Validate] panics on exactly these results of the command: it ran, the
    banner is in its output, the text after the banner has three characters
    and the first of them is an integer.  The panic is then the slice
    [fullVersion[2:4]]. *)
Lemma Validate_panics_iff (git : CombinedOutput) (x : Panic) :
  Validate git = Panicked x <->
  err git = None
  /\ x = SliceBoundsOutOfRange 4 3
  /\ exists v, versionText (ToLower (responseBytes git)) = Some v
               /\ String.length v = 3%nat
               /\ strconv.Atoi (substring 0 1 v) <> None.
Proof.
  destruct git as [out [cause|]]; cbn [err responseBytes].
  { split; [discriminate|]. intros [H _]. discriminate H. }
  change (mkCombinedOutput out None) with (printed out).
  split.
  - rewrite Validate_printed. unfold checkIfContainsGitVersion.
    destruct (strings.Contains (ToLower (ToLower out)) marker) eqn:C;
      [|discriminate].
    destruct (Split_present _ C) as (a & v & rest & S).
    rewrite outcome_validateIfGitIsSupported,
      outcome_validateIfGitIsRunningInMinVersion,
      (extractGitVersionFromString_pieces _ _ _ _ _ _ S).
    destruct (String.length v <? 3)%nat eqn:L; [discriminate|].
    apply Nat.ltb_ge in L.
    destruct v as [|c0 [|c1 [|c2 [|c3 w]]]]; cbn [String.length] in L; try lia.
    + rewrite getVersionAndSubVersion_three.
      cbn [substring].
      destruct (strconv.Atoi (String c0 EmptyString)) eqn:A; [|discriminate].
      cbn [outcome]. intros [= <-]. repeat split.
      exists (String c0 (String c1 (String c2 EmptyString))).
      repeat split.
      * apply versionText_pieces. eauto.
      * cbn [substring]. congruence.
    + rewrite getVersionAndSubVersion_four.
      destruct (strconv.Atoi (String c0 EmptyString)); [|discriminate].
      destruct (strconv.Atoi (String c2 (String c3 EmptyString)));
        cbn [outcome]; [|discriminate].
      destruct (_ || _); discriminate.
  - intros (_ & -> & v & (a & rest & S)%versionText_pieces & L & A).
    rewrite (Validate_pieces _ _ _ _ S), L. cbn [Nat.ltb Nat.leb].
    destruct v as [|c0 [|c1 [|c2 [|c3 w]]]]; try discriminate L.
    rewrite getVersionAndSubVersion_three. cbn [substring] in A.
    destruct (strconv.Atoi (String c0 EmptyString)); [reflexivity|congruence].
Qed.

(** On ASCII output one lower-casing is all there is: an output whose
    lower-case form lacks the banner is answered with [ErrGitNotInstalled]. *)
Lemma Validate_ASCII_without_banner (out : string) :
  strings.isASCII out = true ->
  strings.Contains (ToLower out) marker = false ->
  Validate (printed out) = Returns (ErrGitNotInstalled initial).
Proof.
  intros A H. rewrite Validate_printed. unfold checkIfContainsGitVersion.
  now rewrite (ToLower_ASCII_twice _ A), H.
Qed.

(* ------------------------------------------------------------------------ *)
(** * The claims *)

(** C1.  The claim is that [Validate] returns normally on every output and
    that the fixed-position parsing is total on every output that passes the
    banner and length checks.  The code does not do this: for the output
    [git version 2.0] the banner is found, the text after it has three
    characters and so passes the check [len(responseSpited[1]) < 3], its
    first character parses, and the slice [fullVersion[2:4]] then panics
    with bounds out of range [:4] on length 3. *)
Theorem C1_three_character_version_panics :
  checkIfContainsGitVersion NewRequirementGit (ToLower "git version 2.0") = true
  /\ versionText (ToLower "git version 2.0") = Some "2.0"
  /\ (String.length "2.0" <? 3)%nat = false
  /\ Validate (printed "git version 2.0")
     = Panicked (SliceBoundsOutOfRange 4 3).
Proof. repeat split. Qed.

(** C2, as amended.  When the command fails, [ValidateGit] logs the failure
    and returns that very failure, whatever the command wrote, and nothing
    else happens: the output is not inspected.  The error values that
    [Validate] can return are the command's failure, [ErrGitNotInstalled] and
    [ErrGitLowerVersion]. *)
Theorem C2_command_failure_is_returned_as_is :
  (forall (r : RequirementGit) (git : CombinedOutput) (cause : ExecFailure)
          (p : Package),
      err git = Some cause ->
      ValidateGit r git p =
      mkRun (Returns (Some (execError cause))) p
        [logger.ErrorWithLevel messages.MsgErrorWhenCheckRequirementsGit
           (Some (execError cause))])
  /\ (forall (git : CombinedOutput) (e : errorValue),
      Validate git = Returns (Some e) ->
      (exists cause, err git = Some cause /\ e = execError cause)
      \/ Some e = ErrGitNotInstalled initial
      \/ Some e = ErrGitLowerVersion initial).
Proof.
  split.
  - intros r git cause p H.
    unfold ValidateGit, validateIfGitIsInstalled, execGitVersion.
    rewrite H. reflexivity.
  - intros [out [cause|]] e.
    + unfold Validate, ValidateGit, validateIfGitIsInstalled, execGitVersion.
      cbn. intros [= <-]. left. eauto.
    + change (mkCombinedOutput out None) with (printed out).
      rewrite Validate_printed. intros H. right.
      destruct (checkIfContainsGitVersion NewRequirementGit (ToLower out)).
      * rewrite outcome_validateIfGitIsSupported,
          outcome_validateIfGitIsRunningInMinVersion in H.
        destruct (outcome (extractGitVersionFromString NewRequirementGit
                             (ToLower out) initial))
          as [[[version subversion] [e'|]]|x] eqn:E; try discriminate.
        -- injection H as ->. left. symmetry.
           now apply extractGitVersionFromString_error in E.
        -- destruct (_ || _); [|discriminate].
           injection H as <-. right. reflexivity.
      * injection H as <-. left. reflexivity.
Qed.

(** C3, as amended.  For the output [git version 3.5.0] the major version
    parses as 3, but the characters at offsets 2 and 3 of [3.5.0] are [5.],
    which is not an integer, and [Validate] yields [ErrGitNotInstalled].  With
    the minor version on two digits, as in [git version 3.05.0], [Validate]
    succeeds, the major version 3 being above the minimum 2. *)
Theorem C3_single_digit_minor_is_not_parsed :
  Validate (printed "git version 3.5.0") = Returns (ErrGitNotInstalled initial)
  /\ versionText (ToLower "git version 3.5.0") = Some "3.5.0"
  /\ strconv.Atoi (substring 0 1 "3.5.0") = Some 3
  /\ strconv.Atoi (substring 2 2 "3.5.0") = None
  /\ Validate (printed "git version 3.05.0") = Returns nil_error.
Proof. repeat split. Qed.

(** C4.  For every output whose major and minor versions parse, [Validate]
    yields [ErrGitLowerVersion] exactly when major < 2, or major = 2 and
    minor < 1, and succeeds otherwise.  [git version 1.99.0] and
    [git version 2.00.0] both yield [ErrGitLowerVersion]. *)
Theorem C4_version_comparison :
  (forall (out : string) (major minor : Z),
      outcome (extractGitVersionFromString NewRequirementGit (ToLower out)
                 initial) = Returns (major, minor, nil_error) ->
      (Validate (printed out) = Returns (ErrGitLowerVersion initial)
       <-> major < 2 \/ (major = 2 /\ minor < 1))
      /\ (Validate (printed out) = Returns nil_error
          <-> ~ (major < 2 \/ (major = 2 /\ minor < 1))))
  /\ Validate (printed "git version 1.99.0")
     = Returns (ErrGitLowerVersion initial)
  /\ Validate (printed "git version 2.00.0")
     = Returns (ErrGitLowerVersion initial).
Proof.
  split; [|split; reflexivity].
  intros out major minor H.
  assert (C : checkIfContainsGitVersion NewRequirementGit (ToLower out) = true).
  { unfold checkIfContainsGitVersion.
    destruct (strings.Contains (ToLower (ToLower out)) marker) eqn:E;
      [reflexivity|].
    rewrite (extractGitVersionFromString_no_banner _ _ _ E) in H.
    discriminate H. }
  rewrite Validate_printed, C, outcome_validateIfGitIsSupported,
    outcome_validateIfGitIsRunningInMinVersion, H.
  unfold MinVersionGitAccept, MinSubVersionGitAccept, nil_error.
  destruct (major <? 2) eqn:E1; cbn [orb].
  - apply Z.ltb_lt in E1. cbn. split; split; intros; try discriminate; try lia.
    reflexivity.
  - apply Z.ltb_ge in E1.
    destruct (major =? 2) eqn:E2; cbn [andb].
    + apply Z.eqb_eq in E2.
      destruct (minor <? 1) eqn:E3.
      * apply Z.ltb_lt in E3. cbn.
        split; split; intros; try discriminate; try lia. reflexivity.
      * apply Z.ltb_ge in E3.
        split; split; intros; try discriminate; try lia. reflexivity.
    + apply Z.eqb_neq in E2.
      split; split; intros; try discriminate; try lia. reflexivity.
Qed.


(** C6.  For every output in which the banner [git version ] is not found
    after lower-casing, [Validate] yields [ErrGitNotInstalled].  The output is
    lower-cased by [execGitVersion] and once more by
    [checkIfContainsGitVersion]; on ASCII output the second pass changes
    nothing ([ToLower_ASCII_twice]). *)
Theorem C6_missing_banner_is_not_installed (out : string) :
  strings.Contains (ToLower (ToLower out)) marker = false ->
  Validate (printed out) = Returns (ErrGitNotInstalled initial).
Proof.
  intros H. rewrite Validate_printed.
  unfold checkIfContainsGitVersion. now rewrite H.
Qed.

(* ------------------------------------------------------------------------ *)
(** * A banner line that starts with [git version 2.01.0] *)

Lemma Split_step (s sep : string) (m : nat) :
  s <> EmptyString ->
  strings.Index s sep = Some m ->
  strings.Split s sep =
  substring 0 m s
    :: strings.genSplit (String.length s - 1)
         (strings.from (m + String.length sep) s) sep.
Proof.
  intros Hs Hm. unfold strings.Split.
  destruct s as [|c s]; [congruence|].
  cbn [String.length strings.genSplit]. rewrite Hm.
  now rewrite Nat.sub_succ, Nat.sub_0_r.
Qed.

(** The first piece that [genSplit] cuts is the whole string, or the string
    up to the first occurrence of the separator. *)
Lemma genSplit_head (n : nat) (s sep : string) :
  exists v rest,
    strings.genSplit n s sep = v :: rest
    /\ (v = s \/ exists m, strings.Index s sep = Some m /\ v = substring 0 m s).
Proof.
  destruct n as [|n]; cbn [strings.genSplit].
  - exists s, []. auto.
  - destruct (strings.Index s sep) as [m|] eqn:E.
    + eexists _, _. split; [reflexivity|]. right. eauto.
    + exists s, []. auto.
Qed.

Lemma lowerASCII_app (a b : string) :
  strings.lowerASCII (a ++ b)%string
  = (strings.lowerASCII a ++ strings.lowerASCII b)%string.
Proof. induction a as [|c a IH]; cbn; [|rewrite IH]; reflexivity. Qed.

Lemma isASCII_app (a b : string) :
  strings.isASCII (a ++ b)%string = strings.isASCII a && strings.isASCII b.
Proof.
  induction a as [|c a IH]; cbn [append strings.isASCII]; [reflexivity|].
  now rewrite IH, andb_assoc.
Qed.

Lemma Index_after_2_01_0 (t : string) :
  strings.Index ("2.01.0" ++ t)%string marker =
  match strings.Index t marker with
  | Some n => Some (6 + n)%nat
  | None => None
  end.
Proof.
  unfold strings.Index, marker. simpl.
  destruct (index 0 "git version " t); reflexivity.
Qed.

Lemma Split_banner_2_01_0 (t : string) :
  exists v rest,
    strings.Split ("git version 2.01.0" ++ t)%string marker
    = EmptyString :: ("2.01.0" ++ v)%string :: rest.
Proof.
  assert (F : strings.from (0 + String.length marker)
                ("git version 2.01.0" ++ t)%string = ("2.01.0" ++ t)%string).
  { unfold strings.from, marker.
    cbn [String.length append Nat.add Nat.sub substring].
    now rewrite substring_all. }
  rewrite (Split_step _ marker 0); [|discriminate|reflexivity].
  rewrite substring_nothing, F.
  destruct (genSplit_head
              (String.length ("git version 2.01.0" ++ t)%string - 1)
              ("2.01.0" ++ t)%string marker)
    as (v & rest & -> & [->|(m & Hm & ->)]).
  - eauto.
  - rewrite Index_after_2_01_0 in Hm.
    destruct (strings.Index t marker) as [n|]; [|discriminate].
    injection Hm as <-. exists (substring 0 n t), rest.
    cbn [Nat.add substring append]. reflexivity.
Qed.

(** C7.  For an output [git version 2.01.0 ...], whatever ASCII text follows,
    parsing yields major = 2 and minor = 1 and [Validate] succeeds: (2, 1)
    meets the minimum (2, 1). *)
Theorem C7_minimum_version_is_accepted (rest : string) :
  strings.isASCII rest = true ->
  outcome (extractGitVersionFromString NewRequirementGit
             (ToLower ("git version 2.01.0" ++ rest)%string) initial)
    = Returns (2, 1, nil_error)
  /\ Validate (printed ("git version 2.01.0" ++ rest)%string)
     = Returns nil_error.
Proof.
  intros Hrest.
  assert (A : strings.isASCII ("git version 2.01.0" ++ rest)%string = true)
    by now rewrite isASCII_app, Hrest.
  destruct (Split_banner_2_01_0 (strings.lowerASCII rest)) as (v & more & S).
  assert (P : responseSpited (ToLower ("git version 2.01.0" ++ rest)%string)
              = EmptyString :: ("2.01.0" ++ v)%string :: more).
  { unfold responseSpited.
    rewrite (ToLower_ASCII_twice _ A), (ToLower_ASCII _ A), lowerASCII_app.
    exact S. }
  split.
  - rewrite (extractGitVersionFromString_pieces _ _ _ _ _ _ P).
    cbn [append String.length Nat.ltb Nat.leb].
    now rewrite getVersionAndSubVersion_four.
  - rewrite (Validate_pieces _ _ _ _ P).
    cbn [append String.length Nat.ltb Nat.leb].
    now rewrite getVersionAndSubVersion_four.
Qed.

(** C8.  The result does not depend on the letter case of the output: two
    commands that end alike and whose outputs have the same lower-case form
    give the same run of [ValidateGit], that is the same returned value and
    the same log entries. *)
Theorem C8_letter_case_is_ignored (r : RequirementGit)
    (git1 git2 : CombinedOutput) (p : Package) :
  err git1 = err git2 ->
  ToLower (responseBytes git1) = ToLower (responseBytes git2) ->
  ValidateGit r git1 p = ValidateGit r git2 p
  /\ Validate git1 = Validate git2.
Proof.
  intros He Hl.
  assert (E : forall q, execGitVersion r git1 q = execGitVersion r git2 q).
  { intro q. unfold execGitVersion. now rewrite He, Hl. }
  assert (V : forall r' q, ValidateGit r' git1 q = ValidateGit r' git2 q).
  { intros [] q. destruct r.
    unfold ValidateGit, validateIfGitIsInstalled, bind. now rewrite !E. }
  split; [apply V|]. unfold Validate. now rewrite V.
Qed.

(** C9.  [ValidateGit] is deterministic and keeps no state.  Run twice in a
    row on the same result of the command, starting from any values of the
    package variables, the second run returns what the first returned and
    logs what the first logged, and the package variables are after each run
    what they were before the first.  The receiver has no fields: any two
    values of [RequirementGit] are the same value. *)
Theorem C9_deterministic_and_stateless :
  (forall (r : RequirementGit) (git : CombinedOutput) (p : Package),
      let first := ValidateGit r git p in
      let second := ValidateGit r git (vars first) in
      vars first = p
      /\ vars second = p
      /\ outcome second = outcome first
      /\ emitted second = emitted first)
  /\ (forall r1 r2 : RequirementGit, r1 = r2).
Proof.
  split.
  - intros r git p first second. subst first second.
    rewrite !reads_only_ValidateGit. auto.
  - intros [] []. reflexivity.
Qed.


(* ------------------------------------------------------------------------ *)
(** * Further properties of the package *)

(** ** Bounds of the parsing step *)

(** [getVersionAndSubVersion], called on its own, panics on exactly two kinds
    of text: the empty text, where [fullVersion[0:1]] is out of bounds, and a
    text of one to three characters whose first character is an integer,
    where [fullVersion[2:4]] is out of bounds.  On every text of four
    characters or more it returns. *)
Theorem getVersionAndSubVersion_panics_iff (r : RequirementGit)
    (fullVersion : string) (p : Package) (x : Panic) :
  outcome (getVersionAndSubVersion r fullVersion p) = Panicked x <->
  (fullVersion = EmptyString /\ x = SliceBoundsOutOfRange 1 0)
  \/ ((1 <= String.length fullVersion < 4)%nat
      /\ strconv.Atoi (substring 0 1 fullVersion) <> None
      /\ x = SliceBoundsOutOfRange 4 (String.length fullVersion)).
Proof.
  destruct fullVersion as [|a [|b [|c [|d w]]]].
  - cbn. split.
    + intros [= <-]. auto.
    + intros [[_ ->]|[L _]]; [reflexivity | cbn in L; lia].
  - unfold getVersionAndSubVersion, bind, slice. cbn -[strconv.Atoi].
    destruct (strconv.Atoi (String a EmptyString)); cbn; split.
    + intros [= <-]. right. repeat split; try lia. discriminate.
    + intros [[H _]|(_ & _ & ->)]; [discriminate H | reflexivity].
    + discriminate.
    + intros [[H _]|(_ & H & _)]; [discriminate H | congruence].
  - unfold getVersionAndSubVersion, bind, slice. cbn -[strconv.Atoi].
    destruct (strconv.Atoi (String a EmptyString)); cbn; split.
    + intros [= <-]. right. repeat split; try lia. discriminate.
    + intros [[H _]|(_ & _ & ->)]; [discriminate H | reflexivity].
    + discriminate.
    + intros [[H _]|(_ & H & _)]; [discriminate H | congruence].
  - rewrite getVersionAndSubVersion_three. cbn [substring String.length].
    destruct (strconv.Atoi (String a EmptyString)); cbn; split.
    + intros [= <-]. right. repeat split; try lia. discriminate.
    + intros [[H _]|(_ & _ & ->)]; [discriminate H | reflexivity].
    + discriminate.
    + intros [[H _]|(_ & H & _)]; [discriminate H | congruence].
  - rewrite getVersionAndSubVersion_four. split.
    + destruct (strconv.Atoi (String a EmptyString)); [|discriminate].
      destruct (strconv.Atoi (String c (String d EmptyString))); discriminate.
    + intros [[H _]|(L & _)]; [discriminate H | cbn in L; lia].
Qed.

(** [strings.Split] always gives at least one piece, so the first test of the
    guard in [extractGitVersionFromString], [len(responseSpited) < 1], never
    holds. *)
Theorem responseSpited_never_empty (response : string) :
  (List.length (responseSpited response) <? 1)%nat = false.
Proof.
  unfold responseSpited, strings.Split.
  destruct (genSplit_first (String.length (ToLower response))
              (ToLower response) marker) as (a & rest & ->).
  reflexivity.
Qed.

(** The banner check of [validateIfGitIsInstalled] holds exactly when
    [responseSpited[1]] exists: it is what keeps the index in
    [extractGitVersionFromString] within range. *)
Theorem banner_check_guards_the_index (r : RequirementGit) (response : string) :
  checkIfContainsGitVersion r response = true <->
  exists v, versionText response = Some v.
Proof.
  unfold checkIfContainsGitVersion. split.
  - intros (a & v & rest & H)%Split_present.
    exists v. apply versionText_pieces. eauto.
  - intros (v & (a & rest & H)%versionText_pieces).
    exact (Contains_of_pieces _ _ _ _ H).
Qed.

(** [extractGitVersionFromString], called on its own, panics in exactly two
    cases: the banner is missing, and the index [responseSpited[1]] is out of
    range on a slice of one element; or the text after the banner has three
    characters with an integer first, and the slice [fullVersion[2:4]] is out
    of bounds. *)
Theorem extractGitVersionFromString_panics_iff (r : RequirementGit)
    (response : string) (p : Package) (x : Panic) :
  outcome (extractGitVersionFromString r response p) = Panicked x <->
  (checkIfContainsGitVersion r response = false /\ x = IndexOutOfRange 1 1)
  \/ (x = SliceBoundsOutOfRange 4 3
      /\ exists v, versionText response = Some v
                   /\ String.length v = 3%nat
                   /\ strconv.Atoi (substring 0 1 v) <> None).
Proof.
  unfold checkIfContainsGitVersion.
  destruct (strings.Contains (ToLower response) marker) eqn:C.
  - destruct (Split_present _ C) as (a & v & rest & S).
    assert (V : versionText response = Some v)
      by (apply versionText_pieces; eauto).
    rewrite (extractGitVersionFromString_pieces r _ _ _ _ p S).
    destruct (String.length v <? 3)%nat eqn:L.
    + apply Nat.ltb_lt in L. split; [discriminate|].
      intros [[H _]|(_ & v' & V' & L' & _)]; [discriminate H|].
      rewrite V in V'. injection V' as <-. lia.
    + apply Nat.ltb_ge in L.
      destruct v as [|c0 [|c1 [|c2 [|c3 w]]]]; cbn [String.length] in L;
        try lia.
      * rewrite getVersionAndSubVersion_three.
        destruct (strconv.Atoi (String c0 EmptyString)) eqn:A; cbn [outcome];
          split.
        -- intros [= <-]. right. split; [reflexivity|].
           exists (String c0 (String c1 (String c2 EmptyString))).
           split; [exact V|]. split; [reflexivity|].
           cbn [substring]. congruence.
        -- intros [[H _]|[-> _]]; [discriminate H | reflexivity].
        -- discriminate.
        -- intros [[H _]|(_ & v' & V' & _ & A')]; [discriminate H|].
           rewrite V in V'. injection V' as <-. cbn [substring] in A'.
           congruence.
      * rewrite getVersionAndSubVersion_four. split.
        -- destruct (strconv.Atoi (String c0 EmptyString)); [|discriminate].
           destruct (strconv.Atoi (String c2 (String c3 EmptyString)));
             discriminate.
        -- intros [[H _]|(_ & v' & V' & L' & _)]; [discriminate H|].
           rewrite V in V'. injection V' as <-. cbn in L'. lia.
  - rewrite (extractGitVersionFromString_no_banner r _ p C). split.
    + intros [= <-]. auto.
    + intros [[_ ->]|(_ & v & V & _)]; [reflexivity|].
      apply versionText_pieces in V. destruct V as (a & rest & S).
      rewrite (Contains_of_pieces _ _ _ _ S) in C. discriminate C.
Qed.

(** ** The range of the parsed versions *)

Lemma digit_bounds (ch : ascii) (k : Z) :
  strconv.digit ch = Some k -> 0 <= k <= 9.
Proof.
  intros H. destruct ch as [[] [] [] [] [] [] [] []];
    vm_compute in H; try discriminate H; injection H as <-; lia.
Qed.

Lemma Atoi_one_character (a : ascii) (n : Z) :
  strconv.Atoi (String a EmptyString) = Some n -> 0 <= n <= 9.
Proof.
  intros H. destruct a as [[] [] [] [] [] [] [] []];
    vm_compute in H; try discriminate H; injection H as <-; lia.
Qed.

Lemma Atoi_two_characters (c d : ascii) (n : Z) :
  strconv.Atoi (String c (String d EmptyString)) = Some n -> -9 <= n <= 99.
Proof.
  unfold strconv.Atoi.
  destruct (c =? "-")%char eqn:Minus; [|destruct (c =? "+")%char eqn:Plus];
    cbn [orb strconv.digits].
  - destruct (strconv.digit d) as [k|] eqn:D; [|discriminate].
    apply digit_bounds in D.
    destruct (_ && _); [|discriminate]. intros [= <-]. lia.
  - destruct (strconv.digit d) as [k|] eqn:D; [|discriminate].
    apply digit_bounds in D.
    destruct (_ && _); [|discriminate]. intros [= <-]. lia.
  - destruct (strconv.digit c) as [k1|] eqn:C; [|discriminate].
    destruct (strconv.digit d) as [k2|] eqn:D; [|discriminate].
    apply digit_bounds in C, D.
    destruct (_ && _); [|discriminate]. intros [= <-]. lia.
Qed.

(** Whatever [extractGitVersionFromString] returns, the major version is a
    single digit, 0 to 9, and the minor version lies between -9 and 99: one
    character is read for the first and two for the second, and [Atoi] takes
    a sign.  A major version of 10 or more cannot be told from its first
    digit. *)
Theorem extractGitVersionFromString_range (r : RequirementGit)
    (response : string) (p : Package) (major minor : Z) (e : error) :
  outcome (extractGitVersionFromString r response p)
    = Returns (major, minor, e) ->
  0 <= major <= 9 /\ -9 <= minor <= 99.
Proof.
  destruct (strings.Contains (ToLower response) marker) eqn:C.
  - destruct (Split_present _ C) as (a & v & rest & S).
    rewrite (extractGitVersionFromString_pieces r _ _ _ _ p S).
    destruct (String.length v <? 3)%nat eqn:L.
    { cbn. intros [= <- <- _]. lia. }
    apply Nat.ltb_ge in L.
    destruct v as [|c0 [|c1 [|c2 [|c3 w]]]]; cbn [String.length] in L; try lia.
    + rewrite getVersionAndSubVersion_three.
      destruct (strconv.Atoi (String c0 EmptyString)); cbn;
        [discriminate|]. intros [= <- <- _]. lia.
    + rewrite getVersionAndSubVersion_four.
      destruct (strconv.Atoi (String c0 EmptyString)) as [version|] eqn:A;
        [|cbn; intros [= <- <- _]; lia].
      destruct (strconv.Atoi (String c2 (String c3 EmptyString)))
        as [subversion|] eqn:B; cbn; [|intros [= <- <- _]; lia].
      intros [= <- <- _].
      apply Atoi_one_character in A. apply Atoi_two_characters in B. lia.
  - rewrite (extractGitVersionFromString_no_banner r _ p C). discriminate.
Qed.

(** ** The gate *)

Lemma at_least_minimum (version subversion : Z) :
  (version <? MinVersionGitAccept)
  || ((version =? MinVersionGitAccept)
      && (subversion <? MinSubVersionGitAccept)) = false
  <-> 2 < version \/ (version = 2 /\ 1 <= subversion).
Proof.
  unfold MinVersionGitAccept, MinSubVersionGitAccept.
  rewrite orb_false_iff, andb_false_iff, !Z.ltb_ge, Z.eqb_neq. lia.
Qed.

Lemma Validate_of_parsed (out : string) (major minor : Z) :
  outcome (extractGitVersionFromString NewRequirementGit (ToLower out) initial)
    = Returns (major, minor, nil_error) ->
  Validate (printed out) =
  Returns (if (major <? MinVersionGitAccept)
              || ((major =? MinVersionGitAccept)
                  && (minor <? MinSubVersionGitAccept))
           then ErrGitLowerVersion initial else nil_error).
Proof.
  intros H. rewrite Validate_printed. unfold checkIfContainsGitVersion.
  destruct (strings.Contains (ToLower (ToLower out)) marker) eqn:C.
  - now rewrite outcome_validateIfGitIsSupported,
      outcome_validateIfGitIsRunningInMinVersion, H.
  - rewrite (extractGitVersionFromString_no_banner _ _ _ C) in H.
    discriminate H.
Qed.

(** [Validate] succeeds on exactly these results of the command: it ran, the
    banner is in its output, the text after the banner has four characters or
    more, its first character and its third and fourth characters are
    integers, and the pair is (2, 1) or above. *)
Theorem Validate_succeeds_iff (git : CombinedOutput) :
  Validate git = Returns nil_error <->
  err git = None
  /\ exists (v : string) (major minor : Z),
       versionText (ToLower (responseBytes git)) = Some v
       /\ (4 <= String.length v)%nat
       /\ strconv.Atoi (substring 0 1 v) = Some major
       /\ strconv.Atoi (substring 2 2 v) = Some minor
       /\ (2 < major \/ (major = 2 /\ 1 <= minor)).
Proof.
  destruct git as [out [cause|]]; cbn [err responseBytes].
  { split; [discriminate|]. intros [H _]. discriminate H. }
  change (mkCombinedOutput out None) with (printed out).
  split.
  - rewrite Validate_printed. unfold checkIfContainsGitVersion.
    destruct (strings.Contains (ToLower (ToLower out)) marker) eqn:C;
      [|discriminate].
    destruct (Split_present _ C) as (a & v & rest & S).
    rewrite outcome_validateIfGitIsSupported,
      outcome_validateIfGitIsRunningInMinVersion,
      (extractGitVersionFromString_pieces _ _ _ _ _ _ S).
    destruct (String.length v <? 3)%nat eqn:L; [discriminate|].
    apply Nat.ltb_ge in L.
    destruct v as [|c0 [|c1 [|c2 [|c3 w]]]]; cbn [String.length] in L; try lia.
    + rewrite getVersionAndSubVersion_three.
      destruct (strconv.Atoi (String c0 EmptyString)); discriminate.
    + rewrite getVersionAndSubVersion_four.
      destruct (strconv.Atoi (String c0 EmptyString)) as [major|] eqn:A;
        [|discriminate].
      destruct (strconv.Atoi (String c2 (String c3 EmptyString)))
        as [minor|] eqn:B; cbn [outcome]; [|discriminate].
      destruct (_ || _) eqn:G; [discriminate|]. intros _.
      split; [reflexivity|].
      exists (String c0 (String c1 (String c2 (String c3 w)))), major, minor.
      split; [apply versionText_pieces; eauto|].
      split; [cbn; lia|]. cbn [substring]. rewrite substring_nothing.
      split; [exact A|]. split; [exact B|].
      now apply at_least_minimum.
  - intros (_ & v & major & minor
              & (a & rest & S)%versionText_pieces & L & A & B & G).
    rewrite (Validate_pieces _ _ _ _ S).
    destruct v as [|c0 [|c1 [|c2 [|c3 w]]]]; cbn [String.length] in L; try lia.
    cbn [substring] in A, B. rewrite substring_nothing in B.
    cbn [String.length Nat.ltb Nat.leb].
    rewrite getVersionAndSubVersion_four, A, B. cbn [outcome].
    apply at_least_minimum in G. now rewrite G.
Qed.

(** The gate is monotone: when an output passes, every output whose parsed
    pair is at least as large, major first, passes too. *)
Theorem gate_is_monotone (out1 out2 : string) (major1 minor1 major2 minor2 : Z) :
  outcome (extractGitVersionFromString NewRequirementGit (ToLower out1) initial)
    = Returns (major1, minor1, nil_error) ->
  outcome (extractGitVersionFromString NewRequirementGit (ToLower out2) initial)
    = Returns (major2, minor2, nil_error) ->
  major1 < major2 \/ (major1 = major2 /\ minor1 <= minor2) ->
  Validate (printed out1) = Returns nil_error ->
  Validate (printed out2) = Returns nil_error.
Proof.
  intros H1 H2 Le.
  rewrite (Validate_of_parsed _ _ _ H1), (Validate_of_parsed _ _ _ H2).
  destruct (_ || _) eqn:G1; [discriminate|]. intros _.
  apply at_least_minimum in G1.
  assert (G2 : 2 < major2 \/ (major2 = 2 /\ 1 <= minor2)) by lia.
  apply at_least_minimum in G2. now rewrite G2.
Qed.

(** ** What is logged *)

Lemma emitted_bind {A B : Type} (m : Go A) (k : A -> Go B) (p : Package) :
  emitted (bind m k p) =
  emitted (m p) ++
  match outcome (m p) with
  | Returns a => emitted (k a (vars (m p)))
  | Panicked _ => []
  end.
Proof.
  unfold bind. destruct (outcome (m p)); cbn [emitted]; [reflexivity|].
  now rewrite app_nil_r.
Qed.

(** Two computations that run alike from [p] continue alike. *)
Lemma bind_run {A B : Type} (m1 m2 : Go A) (k : A -> Go B) (p : Package) :
  m1 p = m2 p -> bind m1 k p = bind m2 k p.
Proof. intros H. unfold bind. now rewrite H. Qed.

Lemma emitted_slice (s : string) (lo hi : nat) (p : Package) :
  emitted (slice s lo hi p) = [].
Proof. unfold slice. now destruct (_ && _)%bool. Qed.

Lemma emitted_getVersionAndSubVersion r fullVersion p :
  emitted (getVersionAndSubVersion r fullVersion p) = [].
Proof.
  unfold getVersionAndSubVersion.
  rewrite emitted_bind, emitted_slice. cbn [app].
  destruct (outcome (slice fullVersion 0 1 p)) as [major|x]; [|reflexivity].
  destruct (strconv.Atoi major); [|reflexivity].
  rewrite emitted_bind, emitted_slice. cbn [app].
  destruct (outcome (slice fullVersion 2 4 (vars (slice fullVersion 0 1 p))))
    as [minor|x]; [|reflexivity].
  destruct (strconv.Atoi minor); reflexivity.
Qed.

Lemma emitted_extractGitVersionFromString r response p :
  emitted (extractGitVersionFromString r response p) = [].
Proof.
  destruct (strings.Contains (ToLower response) marker) eqn:C.
  - destruct (Split_present _ C) as (a & v & rest & S).
    rewrite (extractGitVersionFromString_pieces r _ _ _ _ p S).
    destruct (String.length v <? 3)%nat; [reflexivity|].
    apply emitted_getVersionAndSubVersion.
  - now rewrite (extractGitVersionFromString_no_banner r _ p C).
Qed.

Lemma emitted_validateIfGitIsRunningInMinVersion r response p :
  emitted (validateIfGitIsRunningInMinVersion r response p) =
  match outcome (extractGitVersionFromString r response p) with
  | Returns (version, subversion, None) =>
      if (version <? MinVersionGitAccept)
         || ((version =? MinVersionGitAccept)
             && (subversion <? MinSubVersionGitAccept))
      then [logger.ErrorWithLevel messages.MsgErrorWhenGitIsLowerVersion
              (ErrMinVersion p)]
      else []
  | _ => []
  end.
Proof.
  unfold validateIfGitIsRunningInMinVersion.
  rewrite emitted_bind, emitted_extractGitVersionFromString,
    reads_only_extractGitVersionFromString.
  destruct (outcome (extractGitVersionFromString r response p))
    as [[[version subversion] [e|]]|x]; try reflexivity.
  cbn [app].
  destruct (version <? MinVersionGitAccept); [reflexivity|].
  destruct ((version =? MinVersionGitAccept)
            && (subversion <? MinSubVersionGitAccept)); reflexivity.
Qed.

Lemma emitted_validateIfGitIsSupported r version p :
  emitted (validateIfGitIsSupported r version p) =
  emitted (validateIfGitIsRunningInMinVersion r version p) ++
  match outcome (validateIfGitIsRunningInMinVersion r version p) with
  | Returns (Some _) => [logger.Info messages.MsgInfoHowToInstallGit]
  | _ => []
  end.
Proof.
  unfold validateIfGitIsSupported. rewrite emitted_bind. f_equal.
  destruct (outcome (validateIfGitIsRunningInMinVersion r version p))
    as [[e|]|x]; reflexivity.
Qed.

(** With the banner found, [ValidateGit] runs as [validateIfGitIsSupported]
    runs on the lower-cased output. *)
Lemma ValidateGit_with_banner r (out : string) (p : Package) :
  checkIfContainsGitVersion r (ToLower out) = true ->
  ValidateGit r (printed out) p =
  validateIfGitIsSupported r (ToLower out) p.
Proof.
  intros C.
  unfold ValidateGit, validateIfGitIsInstalled, execGitVersion.
  unfold bind, ret, nil_error.
  cbn -[validateIfGitIsSupported checkIfContainsGitVersion strings.ToLower].
  rewrite C.
  cbn -[validateIfGitIsSupported checkIfContainsGitVersion strings.ToLower].
  now destruct (validateIfGitIsSupported r (ToLower out) p).
Qed.

Lemma ValidateGit_without_banner r (out : string) :
  checkIfContainsGitVersion r (ToLower out) = false ->
  ValidateGit r (printed out) initial =
  mkRun (Returns (ErrGitNotInstalled initial)) initial [].
Proof.
  intros C.
  unfold ValidateGit, validateIfGitIsInstalled, execGitVersion.
  unfold bind, ret, readVar. cbn [printed err responseBytes outcome vars emitted].
  rewrite C. reflexivity.
Qed.

Ltac run_cases r git out C :=
  destruct git as [out [?cause|]];
  [ cbn; try discriminate
  | change (mkCombinedOutput out None) with (printed out);
    try change (responseBytes (printed out)) with out;
    destruct (checkIfContainsGitVersion r (ToLower out)) eqn:C;
    [ rewrite (ValidateGit_with_banner r out initial C),
        outcome_validateIfGitIsSupported, emitted_validateIfGitIsSupported,
        outcome_validateIfGitIsRunningInMinVersion,
        emitted_validateIfGitIsRunningInMinVersion
    | rewrite (ValidateGit_without_banner r out C); cbn; try discriminate ] ].

(** A run that succeeds logs nothing. *)
Theorem success_logs_nothing (r : RequirementGit) (git : CombinedOutput) :
  outcome (ValidateGit r git initial) = Returns nil_error ->
  emitted (ValidateGit r git initial) = [].
Proof.
  run_cases r git out C.
  destruct (outcome (extractGitVersionFromString r (ToLower out) initial))
    as [[[version subversion] [e|]]|x]; try discriminate.
  destruct (_ || _); [discriminate | reflexivity].
Qed.

(** A run that returns [ErrGitLowerVersion] has logged two entries, in this
    order: the error entry that names the minimum version [ErrMinVersion],
    then the hint on how to install git. *)
Theorem lower_version_log (r : RequirementGit) (git : CombinedOutput) :
  outcome (ValidateGit r git initial) = Returns (ErrGitLowerVersion initial) ->
  emitted (ValidateGit r git initial) =
  [logger.ErrorWithLevel messages.MsgErrorWhenGitIsLowerVersion
     (ErrMinVersion initial);
   logger.Info messages.MsgInfoHowToInstallGit].
Proof.
  run_cases r git out C.
  destruct (outcome (extractGitVersionFromString r (ToLower out) initial))
    as [[[version subversion] [e|]]|x] eqn:E; try discriminate.
  - apply extractGitVersionFromString_error in E.
    injection E as <-. discriminate.
  - destruct (_ || _); [reflexivity | discriminate].
Qed.

(** A run that returns [ErrGitNotInstalled] has logged the hint on how to
    install git when the banner was found and the version after it could not
    be read, and nothing when the banner was missing. *)
Theorem not_installed_log (r : RequirementGit) (git : CombinedOutput) :
  outcome (ValidateGit r git initial) = Returns (ErrGitNotInstalled initial) ->
  emitted (ValidateGit r git initial) =
  if checkIfContainsGitVersion r (ToLower (responseBytes git))
  then [logger.Info messages.MsgInfoHowToInstallGit]
  else [].
Proof.
  run_cases r git out C; [|reflexivity].
  destruct (outcome (extractGitVersionFromString r (ToLower out) initial))
    as [[[version subversion] [e|]]|x] eqn:E; try discriminate.
  - reflexivity.
  - destruct (_ || _); discriminate.
Qed.

(** A run that panics has logged nothing: the panic comes before any entry
    is written. *)
Theorem panic_logs_nothing (r : RequirementGit) (git : CombinedOutput)
    (x : Panic) :
  outcome (ValidateGit r git initial) = Panicked x ->
  emitted (ValidateGit r git initial) = [].
Proof.
  run_cases r git out C.
  destruct (outcome (extractGitVersionFromString r (ToLower out) initial))
    as [[[version subversion] [e|]]|y]; try discriminate.
  reflexivity.
Qed.

(** ** What is read of the text after the banner *)

(** Only the characters at offsets 0, 2 and 3 of the text after the banner
    are read: two outputs whose texts agree there give the same run of
    [ValidateGit], the same returned value and the same log, whatever stands
    at offset 1 and from offset 4 on, and whatever precedes the banner. *)
Theorem only_offsets_0_2_3_are_read (r : RequirementGit) (out1 out2 : string)
    (a b1 b2 c d : ascii) (w1 w2 : string) (p : Package) :
  versionText (ToLower out1)
    = Some (String a (String b1 (String c (String d w1)))) ->
  versionText (ToLower out2)
    = Some (String a (String b2 (String c (String d w2)))) ->
  ValidateGit r (printed out1) p = ValidateGit r (printed out2) p.
Proof.
  intros (a1 & rest1 & S1)%versionText_pieces
         (a2 & rest2 & S2)%versionText_pieces.
  rewrite !ValidateGit_with_banner
    by (unfold checkIfContainsGitVersion; eapply Contains_of_pieces; eauto).
  unfold validateIfGitIsSupported, validateIfGitIsRunningInMinVersion.
  apply bind_run, bind_run.
  rewrite (extractGitVersionFromString_pieces r _ _ _ _ p S1),
    (extractGitVersionFromString_pieces r _ _ _ _ p S2).
  cbn [String.length Nat.ltb Nat.leb].
  now rewrite !getVersionAndSubVersion_four.
Qed.

(** ** Pieces of [strings.Split] *)

Lemma substring_from (k : nat) (s : string) :
  (substring 0 k s ++ strings.from k s)%string = s.
Proof.
  revert k. induction s as [|c s IH]; intros [|k]; try reflexivity.
  - unfold strings.from. rewrite Nat.sub_0_r. apply substring_all.
  - cbn [substring append]. f_equal. apply IH.
Qed.

Lemma substring_cut (s : string) (m k : nat) :
  (substring 0 m s ++ substring m k s ++ strings.from (m + k) s)%string = s.
Proof.
  revert m. induction s as [|c s IH]; intros [|m].
  - destruct k; reflexivity.
  - reflexivity.
  - rewrite substring_nothing. apply substring_from.
  - cbn [substring append]. f_equal. apply IH.
Qed.

Lemma concat_cons (sep x y : string) (l : list string) :
  String.concat sep (x :: y :: l)
  = (x ++ sep ++ String.concat sep (y :: l))%string.
Proof. reflexivity. Qed.

Lemma concat_genSplit (n : nat) (s sep : string) :
  String.concat sep (strings.genSplit n s sep) = s.
Proof.
  revert s. induction n as [|n IH]; intros s; cbn [strings.genSplit].
  - reflexivity.
  - destruct (strings.Index s sep) as [m|] eqn:E; [|reflexivity].
    specialize (IH (strings.from (m + String.length sep) s)).
    destruct (genSplit_first n (strings.from (m + String.length sep) s) sep)
      as (y & l & G).
    rewrite G in IH |- *. rewrite concat_cons, IH.
    pose proof (substring_cut s m (String.length sep)) as Cut.
    now rewrite (index_correct1 _ _ _ _ E) in Cut.
Qed.

(** Joining the pieces of [Split] with the separator gives the string back,
    as [strings.Join(strings.Split(s, sep), sep)] does in Go: the pieces of
    [responseSpited] and the banners between them are the whole lower-cased
    response. *)
Theorem Split_then_join (s sep : string) :
  sep <> EmptyString ->
  String.concat sep (strings.Split s sep) = s.
Proof. intros _. apply concat_genSplit. Qed.

End Requirement.

(* ------------------------------------------------------------------------ *)
(** * The claims at concrete outputs *)

(** C1 at its failing input, for a fixed instance of the Unicode path. *)
Lemma C1_panic_example :
  Validate noFolding (printed "git version 2.0")
  = Panicked (SliceBoundsOutOfRange 4 3).
Proof. reflexivity. Qed.

(** C2 as first stated fails: when [git] is not on the path, [Validate]
    returns the failure of the command, which is neither
    [ErrGitNotInstalled] nor [ErrGitLowerVersion]. *)
Lemma C2_counterexample :
  Validate noFolding (mkCombinedOutput EmptyString (Some ErrNotFound))
  = Returns (Some (execError ErrNotFound))
  /\ Validate noFolding (mkCombinedOutput EmptyString (Some ErrNotFound))
     <> Returns (ErrGitNotInstalled initial)
  /\ Validate noFolding (mkCombinedOutput EmptyString (Some ErrNotFound))
     <> Returns (ErrGitLowerVersion initial).
Proof. repeat split; discriminate. Qed.

Lemma C2_witness :
  err (mkCombinedOutput "fatal: not a git command" (Some (ExitError 128)))
  = Some (ExitError 128)
  /\ ValidateGit noFolding NewRequirementGit
       (mkCombinedOutput "fatal: not a git command" (Some (ExitError 128)))
       initial
     = mkRun (Returns (Some (execError (ExitError 128)))) initial
         [logger.ErrorWithLevel messages.MsgErrorWhenCheckRequirementsGit
            (Some (execError (ExitError 128)))]
  /\ ((exists cause,
          err (printed "git version 1.99.0") = Some cause
          /\ errorString
               "git version is lower of 2.01. Please check and try again"
             = execError cause)
      \/ Some (errorString
                 "git version is lower of 2.01. Please check and try again")
         = ErrGitNotInstalled initial
      \/ Some (errorString
                 "git version is lower of 2.01. Please check and try again")
         = ErrGitLowerVersion initial).
Proof.
  split; [reflexivity|]. split.
  - apply (proj1 (C2_command_failure_is_returned_as_is noFolding)).
    reflexivity.
  - apply (proj2 (C2_command_failure_is_returned_as_is noFolding)
             (printed "git version 1.99.0")).
    reflexivity.
Defined.

(** C3 as first stated fails: [git version 3.5.0] does not pass. *)
Lemma C3_counterexample :
  Validate noFolding (printed "git version 3.5.0") <> Returns nil_error.
Proof. discriminate. Qed.

Lemma C4_witness :
  outcome (extractGitVersionFromString noFolding NewRequirementGit
             (strings.ToLower noFolding "git version 2.34.1") initial)
  = Returns (2, 34, nil_error)
  /\ Validate noFolding (printed "git version 2.34.1") = Returns nil_error.
Proof.
  split; [reflexivity|].
  apply (proj1 (C4_version_comparison noFolding) "git version 2.34.1" 2 34
           eq_refl).
  lia.
Defined.


Lemma C6_witness :
  Validate noFolding (printed "bash: git: command not found")
  = Returns (ErrGitNotInstalled initial).
Proof.
  apply (C6_missing_banner_is_not_installed noFolding
           "bash: git: command not found").
  reflexivity.
Defined.

Lemma C7_witness :
  outcome (extractGitVersionFromString noFolding NewRequirementGit
             (strings.ToLower noFolding "git version 2.01.0 ...") initial)
  = Returns (2, 1, nil_error)
  /\ Validate noFolding (printed "git version 2.01.0 ...") = Returns nil_error.
Proof.
  apply (C7_minimum_version_is_accepted noFolding " ...").
  reflexivity.
Defined.

Lemma C8_witness :
  Validate noFolding (printed "GIT Version 2.30.0")
  = Validate noFolding (printed "git version 2.30.0").
Proof.
  apply (C8_letter_case_is_ignored noFolding NewRequirementGit
           (printed "GIT Version 2.30.0") (printed "git version 2.30.0")
           initial); reflexivity.
Defined.


(* ------------------------------------------------------------------------ *)
(** * The further properties at concrete outputs *)

Lemma extractGitVersionFromString_range_witness :
  outcome (extractGitVersionFromString noFolding NewRequirementGit
             "git version 9.-9" initial) = Returns (9, -9, nil_error)
  /\ (0 <= 9 <= 9 /\ -9 <= -9 <= 99).
Proof.
  split; [reflexivity|].
  apply (extractGitVersionFromString_range noFolding NewRequirementGit
           "git version 9.-9" initial 9 (-9) nil_error).
  reflexivity.
Defined.

Lemma gate_is_monotone_witness :
  Validate noFolding (printed "git version 2.34.1") = Returns nil_error.
Proof.
  apply (gate_is_monotone noFolding "git version 2.01.0" "git version 2.34.1"
           2 1 2 34).
  - reflexivity.
  - reflexivity.
  - lia.
  - reflexivity.
Defined.

Lemma success_logs_nothing_witness :
  emitted (ValidateGit noFolding NewRequirementGit
             (printed "git version 2.34.1") initial) = [].
Proof.
  apply (success_logs_nothing noFolding NewRequirementGit
           (printed "git version 2.34.1")).
  reflexivity.
Defined.

Lemma lower_version_log_witness :
  emitted (ValidateGit noFolding NewRequirementGit
             (printed "git version 1.99.0") initial) =
  [logger.ErrorWithLevel messages.MsgErrorWhenGitIsLowerVersion
     (ErrMinVersion initial);
   logger.Info messages.MsgInfoHowToInstallGit].
Proof.
  apply (lower_version_log noFolding NewRequirementGit
           (printed "git version 1.99.0")).
  reflexivity.
Defined.

Lemma not_installed_log_witness :
  emitted (ValidateGit noFolding NewRequirementGit
             (printed "git version 2.x1") initial)
  = [logger.Info messages.MsgInfoHowToInstallGit]
  /\ emitted (ValidateGit noFolding NewRequirementGit
                (printed "bash: git: command not found") initial) = [].
Proof.
  split.
  - apply (not_installed_log noFolding NewRequirementGit
             (printed "git version 2.x1")).
    reflexivity.
  - apply (not_installed_log noFolding NewRequirementGit
             (printed "bash: git: command not found")).
    reflexivity.
Defined.

Lemma panic_logs_nothing_witness :
  emitted (ValidateGit noFolding NewRequirementGit
             (printed "git version 2.0") initial) = [].
Proof.
  apply (panic_logs_nothing noFolding NewRequirementGit
           (printed "git version 2.0") (SliceBoundsOutOfRange 4 3)).
  reflexivity.
Defined.

Lemma only_offsets_0_2_3_are_read_witness :
  ValidateGit noFolding NewRequirementGit (printed "git version 2.30.0") initial
  = ValidateGit noFolding NewRequirementGit
      (printed "Apple GIT VERSION 2-30.1 (build 130)") initial.
Proof.
  apply (only_offsets_0_2_3_are_read noFolding NewRequirementGit
           "git version 2.30.0" "Apple GIT VERSION 2-30.1 (build 130)"
           "2" "." "-" "3" "0" ".0" ".1 (build 130)" initial).
  - reflexivity.
  - reflexivity.
Defined.

Lemma Split_then_join_witness :
  String.concat "," (strings.Split "a,b,,c" ",") = "a,b,,c".
Proof.
  apply (Split_then_join "a,b,,c" ",").
  discriminate.
Defined.

Lemma Validate_ASCII_without_banner_witness :
  Validate noFolding (printed "GIT: command not found")
  = Returns (ErrGitNotInstalled initial).
Proof.
  apply (Validate_ASCII_without_banner noFolding "GIT: command not found").
  - reflexivity.
  - reflexivity.
Defined.

End git.
